(** * HighlightDirective: the [a2aHighlight] attribute directive

    A shallow embedding of [src/app/highlight.directive.ts] and the proofs of
    its hover behaviour.  The directive object is a record; a method is a
    function from the receiver (and its arguments) to a completion carrying
    the mutated receiver. *)

From stdpp Require Import gmap strings.

(** ** The fragment of JavaScript the directive uses *)

Module JS.

(** The values a [string]-typed binding can hold at run time: the
    compiler of the source does not exclude [null] and [undefined]. *)
Inductive value : Type :=
| undefined
| null
| str (s : string).

#[global] Instance value_eq_dec : EqDecision value.
Proof. solve_decision. Defined.

(** ToBoolean: [undefined], [null] and the empty string are falsy. *)
Definition truthy (v : value) : bool :=
  match v with
  | undefined | null => false
  | str EmptyString => false
  | str (String _ _) => true
  end.

(** [a || b]: the left operand when it is truthy, else the right one. *)
Definition or (a b : value) : value :=
  if truthy a then a else b.

(** How a call ends: normally with a result, or abruptly with a thrown
    value. *)
Inductive completion (A : Type) : Type :=
| Normal (a : A)
| Throw (exn : value).

#[global] Arguments Normal {A} a.
#[global] Arguments Throw {A} exn.

Definition bind {A B : Type} (c : completion A) (k : A -> completion B)
  : completion B :=
  match c with
  | Normal a => k a
  | Throw exn => Throw exn
  end.

End JS.

Export JS.

Declare Scope js_scope.
Delimit Scope js_scope with js.
Infix "||" := JS.or : js_scope.
Notation "x <- c ;; k" := (JS.bind c (fun x => k))
  (at level 100, c at next level, right associativity) : js_scope.

(** ** The element and the framework's renderer *)

(** A DOM element, as far as the directive touches it: its inline style
    declaration, from property name to value. *)
Record Element : Type := mkElement {
  style : gmap string string
}.

(** The injected handle on the host element. *)
Record ElementRef : Type := mkElementRef {
  nativeElement : Element
}.

Module Renderer.

(** Modelled from the spec: the host framework's style-mutation service
    ([Renderer.setElementStyle]) is not part of this repository.  It sets
    one style property of the node when the value is present and clears
    that property when the value is absent ([null] or [undefined]). *)
Definition setElementStyle (renderElement : Element) (styleName : string)
    (styleValue : value) : completion Element :=
  match styleValue with
  | str s => Normal (mkElement (<[styleName := s]> (style renderElement)))
  | null | undefined => Normal (mkElement (delete styleName (style renderElement)))
  end.

(** What a style property reads after [styleValue] was written to it. *)
Definition written (styleValue : value) : option string :=
  match styleValue with
  | str s => Some s
  | null | undefined => None
  end.

End Renderer.

(** ** The directive *)

Record HighlightDirective : Type := mkHighlightDirective {
  _defaultColor : value;
  el : ElementRef;
  highlightColor : value
}.

(** Field assignments [this.f = v]. *)
Definition set__defaultColor (this : HighlightDirective) (v : value)
  : HighlightDirective :=
  mkHighlightDirective v (el this) (highlightColor this).

Definition set_highlightColor (this : HighlightDirective) (v : value)
  : HighlightDirective :=
  mkHighlightDirective (_defaultColor this) (el this) v.

(** The element behind [this.el.nativeElement] after a renderer call on it. *)
Definition set_nativeElement (this : HighlightDirective) (e : Element)
  : HighlightDirective :=
  mkHighlightDirective (_defaultColor this) (mkElementRef e) (highlightColor this).

Section Methods.

Local Open Scope js_scope.

(** [private _defaultColor = 'red'; constructor(private el, private renderer) { }]:
    [highlightColor] is declared and left unassigned. *)
Definition new (el : ElementRef) : HighlightDirective :=
  mkHighlightDirective (str "red") el undefined.

(** [set defaultColor(colorName)] *)
Definition defaultColor (this : HighlightDirective) (colorName : value)
  : completion HighlightDirective :=
  Normal (set__defaultColor this (colorName || _defaultColor this)).

(** [private highlight(color)] *)
Definition highlight (this : HighlightDirective) (color : value)
  : completion HighlightDirective :=
  e <- Renderer.setElementStyle (nativeElement (el this)) "backgroundColor" color ;;
  Normal (set_nativeElement this e).

(** [@HostListener('mouseenter') onMouseEnter()] *)
Definition onMouseEnter (this : HighlightDirective)
  : completion HighlightDirective :=
  highlight this (highlightColor this || _defaultColor this).

(** [@HostListener('mouseleave') onMouseLeave()] *)
Definition onMouseLeave (this : HighlightDirective)
  : completion HighlightDirective :=
  highlight this null.

(** What the host framework does to a directive instance: it writes the two
    [@Input] bindings and fires the two host events. *)
Inductive action : Type :=
| BindHighlightColor (v : value)
| BindDefaultColor (v : value)
| MouseEnter
| MouseLeave.

Definition perform (this : HighlightDirective) (a : action)
  : completion HighlightDirective :=
  match a with
  | BindHighlightColor v => Normal (set_highlightColor this v)
  | BindDefaultColor v => defaultColor this v
  | MouseEnter => onMouseEnter this
  | MouseLeave => onMouseLeave this
  end.

(** A sequence of actions, stopping at the first abrupt completion. *)
Fixpoint run (this : HighlightDirective) (acts : list action)
  : completion HighlightDirective :=
  match acts with
  | [] => Normal this
  | a :: acts' => this' <- perform this a ;; run this' acts'
  end.

End Methods.

(** The handlers over the renderer the constructor was given:
    [constructor(private el: ElementRef, private renderer: Renderer)] takes
    any implementation of the framework's renderer, and [highlight] calls
    [this.renderer.setElementStyle] on it with no [try] around the call. *)
Module Injected.

Section WithRenderer.

Local Open Scope js_scope.

Variable renderer : Element -> string -> value -> completion Element.

(** [private highlight(color)] *)
Definition highlight (this : HighlightDirective) (color : value)
  : completion HighlightDirective :=
  e <- renderer (nativeElement (el this)) "backgroundColor" color ;;
  Normal (set_nativeElement this e).

(** [@HostListener('mouseenter') onMouseEnter()] *)
Definition onMouseEnter (this : HighlightDirective)
  : completion HighlightDirective :=
  highlight this (highlightColor this || _defaultColor this).

(** [@HostListener('mouseleave') onMouseLeave()] *)
Definition onMouseLeave (this : HighlightDirective)
  : completion HighlightDirective :=
  highlight this null.

End WithRenderer.


End Injected.

(** The background style of the host element; [None] when it is cleared. *)
Definition background (this : HighlightDirective) : option string :=
  style (nativeElement (el this)) !! "backgroundColor".

(** The inline style of the host element without its background. *)
Definition other_styles (this : HighlightDirective) : gmap string string :=
  delete "backgroundColor" (style (nativeElement (el this))).

(** A paragraph that already carries inline style, for the examples. *)
Definition paragraph : ElementRef :=
  mkElementRef (mkElement (<["color" := "black"]> (<["backgroundColor" := "white"]> ∅))).

(** Directives attached to it, as the spec's scenarios set them up. *)
Definition yellow_directive : HighlightDirective :=
  set_highlightColor (new paragraph) (str "yellow").

Definition violet_directive : HighlightDirective :=
  set__defaultColor (new paragraph) (str "violet").

Definition empty_directive : HighlightDirective :=
  set_highlightColor (new paragraph) (str EmptyString).

(** An element without inline style. *)
Definition plain : ElementRef := mkElementRef (mkElement ∅).

(** Whether an action writes an input binding, as opposed to firing a host
    event. *)
Definition is_binding (a : action) : bool :=
  match a with
  | BindHighlightColor _ | BindDefaultColor _ => true
  | MouseEnter | MouseLeave => false
  end.

(** The last truthy value of [vs], or [d] when [vs] holds none. *)
Definition last_truthy (d : value) (vs : list value) : value :=
  default d (last (filter (fun v => truthy v = true) vs)).

(** ** Concrete runs *)

Example hover_default :
  run (new paragraph) [MouseEnter] =
  Normal (set_nativeElement (new paragraph)
    (mkElement (<["color" := "black"]> (<["backgroundColor" := "red"]> ∅)))).
Proof. vm_compute. reflexivity. Qed.

Example hover_violet :
  background <$> (match run (new paragraph)
                    [BindDefaultColor (str "violet"); MouseEnter] with
                  | Normal this => Some this
                  | Throw _ => None
                  end) = Some (Some "violet").
Proof. vm_compute. reflexivity. Qed.

Example leave_keeps_color :
  run (new paragraph) [BindHighlightColor (str "yellow"); MouseEnter; MouseLeave] =
  Normal (set_highlightColor
    (set_nativeElement (new paragraph) (mkElement (<["color" := "black"]> ∅)))
    (str "yellow")).
Proof. vm_compute. reflexivity. Qed.

(** ** The [||] operator *)

Lemma truthy_str (v : value) :
  truthy v = true -> exists s, v = str s /\ s <> EmptyString.
Proof.
  destruct v as [| |s]; simpl; try discriminate.
  destruct s; [discriminate|]. intros _. eexists. split; [reflexivity|discriminate].
Qed.

Lemma truthy_nonempty (s : string) : s <> EmptyString -> truthy (str s) = true.
Proof. destruct s; [congruence|reflexivity]. Qed.

Lemma or_truthy (a b : value) : truthy a = true -> JS.or a b = a.
Proof. unfold JS.or. intros ->. reflexivity. Qed.

Lemma or_falsy (a b : value) : truthy a = false -> JS.or a b = b.
Proof. unfold JS.or. intros ->. reflexivity. Qed.

Lemma truthy_or (a b : value) : truthy b = true -> truthy (JS.or a b) = true.
Proof. unfold JS.or. destruct (truthy a) eqn:Ha; auto. Qed.

(** ** The renderer call made by [highlight] *)

Lemma setElementStyle_normal (e : Element) (n : string) (v : value) :
  exists e', Renderer.setElementStyle e n v = Normal e'
    /\ style e' !! n = Renderer.written v
    /\ delete n (style e') = delete n (style e).
Proof.
  destruct v as [| |s]; simpl; eexists; (split; [reflexivity|]); simpl.
  - split; [apply lookup_delete_eq | apply delete_delete_eq].
  - split; [apply lookup_delete_eq | apply delete_delete_eq].
  - split; [apply lookup_insert_eq | apply delete_insert_eq].
Qed.

(** [highlight] always completes normally; it writes [color] to the
    background and touches neither the fields nor the other styles. *)
Lemma highlight_spec (this : HighlightDirective) (color : value) :
  exists this', highlight this color = Normal this'
    /\ background this' = Renderer.written color
    /\ other_styles this' = other_styles this
    /\ _defaultColor this' = _defaultColor this
    /\ highlightColor this' = highlightColor this.
Proof.
  unfold highlight.
  destruct (setElementStyle_normal (nativeElement (el this)) "backgroundColor" color)
    as (e' & -> & Hbg & Hrest).
  simpl. eexists. split; [reflexivity|].
  unfold background, other_styles. simpl. auto.
Qed.

Lemma defaultColor_spec (this : HighlightDirective) (colorName : value) :
  defaultColor this colorName =
  Normal (set__defaultColor this (JS.or colorName (_defaultColor this))).
Proof. reflexivity. Qed.

Lemma set__defaultColor_same (this : HighlightDirective) :
  set__defaultColor this (_defaultColor this) = this.
Proof. destruct this. reflexivity. Qed.

(** Every single action completes normally. *)
Lemma perform_normal (this : HighlightDirective) (a : action) :
  exists this', perform this a = Normal this'.
Proof.
  destruct a as [v|v| |]; simpl.
  - eexists. reflexivity.
  - eexists. reflexivity.
  - destruct (highlight_spec this (JS.or (highlightColor this) (_defaultColor this)))
      as (this' & H & _). exists this'. exact H.
  - destruct (highlight_spec this null) as (this' & H & _). exists this'. exact H.
Qed.

(** No action turns a truthy [_defaultColor] into a falsy one. *)
Lemma perform_preserves_truthy (this this' : HighlightDirective) (a : action) :
  truthy (_defaultColor this) = true ->
  perform this a = Normal this' ->
  truthy (_defaultColor this') = true.
Proof.
  intros Hinv. destruct a as [v|v| |]; simpl.
  - intros [= <-]. exact Hinv.
  - intros [= <-]. simpl. apply truthy_or. exact Hinv.
  - unfold onMouseEnter.
    destruct (highlight_spec this (JS.or (highlightColor this) (_defaultColor this)))
      as (t & -> & _ & _ & Hd & _). intros [= <-]. rewrite Hd. exact Hinv.
  - unfold onMouseLeave. destruct (highlight_spec this null)
      as (t & -> & _ & _ & Hd & _). intros [= <-]. rewrite Hd. exact Hinv.
Qed.

Lemma run_normal_truthy (acts : list action) (this : HighlightDirective) :
  truthy (_defaultColor this) = true ->
  exists this', run this acts = Normal this' /\ truthy (_defaultColor this') = true.
Proof.
  revert this. induction acts as [|a acts IH]; intros this Hinv; simpl.
  - exists this. split; [reflexivity|exact Hinv].
  - destruct (perform_normal this a) as (t & Ht). rewrite Ht. simpl.
    apply IH. eapply perform_preserves_truthy; eassumption.
Qed.

Lemma run_normal (acts : list action) (this : HighlightDirective) :
  exists this', run this acts = Normal this'.
Proof.
  revert this. induction acts as [|a acts IH]; intros this; simpl.
  - exists this. reflexivity.
  - destruct (perform_normal this a) as (t & ->). simpl. apply IH.
Qed.

(** ** Pointer enter *)

(** C1: in every state whose [highlightColor] is a non-empty string, the
    mouse-enter handler completes normally and leaves the background style
    of the element equal to exactly that string. *)
Theorem onMouseEnter_highlightColor (this : HighlightDirective) (s : string) :
  highlightColor this = str s ->
  s <> EmptyString ->
  exists this', onMouseEnter this = Normal this' /\ background this' = Some s.
Proof.
  intros Hc Hs. unfold onMouseEnter.
  rewrite Hc, (or_truthy (str s)) by (apply truthy_nonempty; exact Hs).
  destruct (highlight_spec this (str s)) as (this' & Hrun & Hbg & _).
  exists this'. split; [exact Hrun|exact Hbg].
Qed.

Lemma onMouseEnter_highlightColor_witness :
  exists this',
    onMouseEnter yellow_directive = Normal this' /\ background this' = Some "yellow".
Proof.
  apply (onMouseEnter_highlightColor yellow_directive "yellow").
  - reflexivity.
  - discriminate.
Defined.

(** C2: in every state whose [highlightColor] is unset, the mouse-enter
    handler completes normally and writes the current [_defaultColor] to the
    background style: the background then reads what the renderer stores for
    that value, which is the colour itself whenever [_defaultColor] is a
    string. *)
Theorem onMouseEnter_unset (this : HighlightDirective) :
  highlightColor this = undefined ->
  exists this', onMouseEnter this = Normal this'
    /\ background this' = Renderer.written (_defaultColor this)
    /\ forall s, _defaultColor this = str s -> background this' = Some s.
Proof.
  intros Hc. unfold onMouseEnter. rewrite Hc, or_falsy by reflexivity.
  destruct (highlight_spec this (_defaultColor this)) as (this' & Hrun & Hbg & _).
  exists this'. split; [exact Hrun|]. split; [exact Hbg|].
  intros s Hs. rewrite Hbg, Hs. reflexivity.
Qed.

Lemma onMouseEnter_unset_witness :
  exists this', onMouseEnter violet_directive = Normal this'
    /\ background this' = Some "violet"
    /\ forall s, str "violet" = str s -> background this' = Some s.
Proof.
  apply (onMouseEnter_unset violet_directive).
  reflexivity.
Defined.

(** C9: a [highlightColor] bound to the empty string falls back as an unset
    one does: mouse-enter writes [_defaultColor] to the background, and every
    falsy binding leaves the element in that same state. *)
Theorem onMouseEnter_empty_highlightColor (this : HighlightDirective) :
  highlightColor this = str EmptyString ->
  exists this', onMouseEnter this = Normal this'
    /\ background this' = Renderer.written (_defaultColor this)
    /\ (forall s, _defaultColor this = str s -> background this' = Some s)
    /\ forall v, truthy v = false ->
         exists this'', onMouseEnter (set_highlightColor this v) = Normal this''
           /\ el this'' = el this'.
Proof.
  intros Hc. unfold onMouseEnter. rewrite Hc, or_falsy by reflexivity.
  destruct (highlight_spec this (_defaultColor this)) as (this' & Hrun & Hbg & _).
  exists this'. split; [exact Hrun|]. split; [exact Hbg|]. split.
  - intros s Hs. rewrite Hbg, Hs. reflexivity.
  - intros v Hv. simpl. rewrite or_falsy by exact Hv.
    unfold highlight in *. simpl.
    destruct (Renderer.setElementStyle (nativeElement (el this)) "backgroundColor"
                (_defaultColor this)) as [e|exn]; simpl in *; [|discriminate].
    injection Hrun as <-. eexists. split; reflexivity.
Qed.

Lemma onMouseEnter_empty_highlightColor_witness :
  exists this', onMouseEnter empty_directive = Normal this'
    /\ background this' = Some "red"
    /\ (forall s, str "red" = str s -> background this' = Some s)
    /\ forall v, truthy v = false ->
         exists this'', onMouseEnter (set_highlightColor empty_directive v) = Normal this''
           /\ el this'' = el this'.
Proof.
  apply (onMouseEnter_empty_highlightColor empty_directive).
  reflexivity.
Defined.

(** ** Pointer leave *)

(** C3: whatever the two colour fields and the previous background are, the
    mouse-leave handler completes normally and leaves the element without a
    background style. *)
Theorem onMouseLeave_clears (this : HighlightDirective) :
  exists this', onMouseLeave this = Normal this' /\ background this' = None.
Proof.
  unfold onMouseLeave.
  destruct (highlight_spec this null) as (this' & Hrun & Hbg & _).
  exists this'. split; [exact Hrun|exact Hbg].
Qed.

(** C10: neither handler changes a field of the directive: after
    mouse-enter and after mouse-leave [highlightColor] and [_defaultColor]
    are as before, and so is every style of the element other than its
    background. *)
Theorem handlers_frame (this : HighlightDirective) :
  (exists this', onMouseEnter this = Normal this'
     /\ highlightColor this' = highlightColor this
     /\ _defaultColor this' = _defaultColor this
     /\ other_styles this' = other_styles this)
  /\
  (exists this', onMouseLeave this = Normal this'
     /\ highlightColor this' = highlightColor this
     /\ _defaultColor this' = _defaultColor this
     /\ other_styles this' = other_styles this).
Proof.
  split.
  - unfold onMouseEnter.
    destruct (highlight_spec this (JS.or (highlightColor this) (_defaultColor this)))
      as (this' & Hrun & _ & Hrest & Hd & Hh).
    exists this'. auto.
  - unfold onMouseLeave.
    destruct (highlight_spec this null) as (this' & Hrun & _ & Hrest & Hd & Hh).
    exists this'. auto.
Qed.

(** ** The [defaultColor] setter *)

(** C5: the setter never throws; given a non-empty string it replaces
    [_defaultColor] with it, so that the field then reads that string while
    [highlightColor] and the element are as before; and given the empty
    string, [null] or [undefined] it leaves the directive exactly as it
    was. *)
Theorem defaultColor_setter (this : HighlightDirective) (colorName : value) :
  (forall s, colorName = str s -> s <> EmptyString ->
     exists this', defaultColor this colorName = Normal this'
       /\ _defaultColor this' = str s
       /\ highlightColor this' = highlightColor this
       /\ el this' = el this)
  /\ (truthy colorName = false -> defaultColor this colorName = Normal this)
  /\ exists this', defaultColor this colorName = Normal this'.
Proof.
  rewrite defaultColor_spec. split; [|split].
  - intros s -> Hs. rewrite or_truthy by (apply truthy_nonempty; exact Hs).
    eexists. split; [reflexivity|]. simpl. auto.
  - intros Hf. rewrite or_falsy by exact Hf.
    rewrite set__defaultColor_same. reflexivity.
  - eexists. reflexivity.
Qed.

Lemma defaultColor_setter_witness :
  (exists this', defaultColor yellow_directive (str "blue") = Normal this'
     /\ _defaultColor this' = str "blue"
     /\ highlightColor this' = str "yellow"
     /\ el this' = paragraph)
  /\ defaultColor yellow_directive (str EmptyString) = Normal yellow_directive
  /\ defaultColor yellow_directive null = Normal yellow_directive
  /\ defaultColor yellow_directive undefined = Normal yellow_directive.
Proof.
  split; [|split; [|split]].
  - apply (proj1 (defaultColor_setter yellow_directive (str "blue")) "blue").
    + reflexivity.
    + discriminate.
  - apply (proj1 (proj2 (defaultColor_setter yellow_directive (str EmptyString)))).
    reflexivity.
  - apply (proj1 (proj2 (defaultColor_setter yellow_directive null))).
    reflexivity.
  - apply (proj1 (proj2 (defaultColor_setter yellow_directive undefined))).
    reflexivity.
Defined.

(** C4: [_defaultColor] is never falsy.  A new directive holds ["red"]; the
    setter keeps the previous value on falsy input; and after any sequence
    of bindings and events on a new directive the run has completed
    normally with a truthy [_defaultColor], that is, a non-empty string. *)
Theorem defaultColor_never_falsy :
  (forall el, _defaultColor (new el) = str "red")
  /\ (forall this v, truthy v = false ->
        exists this', defaultColor this v = Normal this'
          /\ _defaultColor this' = _defaultColor this)
  /\ (forall el acts,
        exists this' s, run (new el) acts = Normal this'
          /\ _defaultColor this' = str s /\ s <> EmptyString).
Proof.
  split; [|split].
  - reflexivity.
  - intros this v Hv. rewrite defaultColor_spec, or_falsy by exact Hv.
    eexists. split; reflexivity.
  - intros el acts.
    destruct (run_normal_truthy acts (new el)) as (this' & Hrun & Hinv);
      [reflexivity|].
    destruct (truthy_str _ Hinv) as (s & Hs & Hne).
    exists this', s. auto.
Qed.

Lemma defaultColor_never_falsy_witness :
  exists this', defaultColor violet_directive (str EmptyString) = Normal this'
    /\ _defaultColor this' = str "violet".
Proof.
  apply (proj1 (proj2 defaultColor_never_falsy) violet_directive (str EmptyString)).
  reflexivity.
Defined.

(** ** Scenarios *)

(** C6: with [highlightColor] unset, setting the default colour to ["blue"]
    and then entering the element leaves its background at ["blue"]. *)
Theorem defaultColor_blue_then_enter (this : HighlightDirective) :
  highlightColor this = undefined ->
  exists this1 this2,
    defaultColor this (str "blue") = Normal this1
    /\ onMouseEnter this1 = Normal this2
    /\ background this2 = Some "blue".
Proof.
  intros Hc. rewrite defaultColor_spec, or_truthy by reflexivity.
  destruct (highlight_spec (set__defaultColor this (str "blue")) (str "blue"))
    as (this2 & Hrun & Hbg & _).
  exists (set__defaultColor this (str "blue")), this2.
  split; [reflexivity|]. split; [|exact Hbg].
  unfold onMouseEnter. simpl. rewrite Hc, or_falsy by reflexivity. exact Hrun.
Qed.

Lemma defaultColor_blue_then_enter_witness :
  exists this1 this2,
    defaultColor violet_directive (str "blue") = Normal this1
    /\ onMouseEnter this1 = Normal this2
    /\ background this2 = Some "blue".
Proof.
  apply (defaultColor_blue_then_enter violet_directive). reflexivity.
Defined.

(** C7: a new directive bound to ["yellow"] still has the default ["red"];
    entering the element sets its background to ["yellow"], and leaving it
    afterwards clears the background. *)
Theorem yellow_enter_then_leave (el : ElementRef) :
  _defaultColor (set_highlightColor (new el) (str "yellow")) = str "red"
  /\ exists this1 this2,
       onMouseEnter (set_highlightColor (new el) (str "yellow")) = Normal this1
       /\ background this1 = Some "yellow"
       /\ onMouseLeave this1 = Normal this2
       /\ background this2 = None.
Proof.
  split; [reflexivity|].
  destruct (highlight_spec (set_highlightColor (new el) (str "yellow")) (str "yellow"))
    as (this1 & Hrun1 & Hbg1 & _).
  destruct (highlight_spec this1 null) as (this2 & Hrun2 & Hbg2 & _).
  exists this1, this2. auto.
Qed.

(** ** Abrupt completion *)

(** With the renderer of the spec the handlers over an injected renderer
    are the handlers above. *)
Lemma injected_setElementStyle (this : HighlightDirective) :
  Injected.onMouseEnter Renderer.setElementStyle this = onMouseEnter this
  /\ Injected.onMouseLeave Renderer.setElementStyle this = onMouseLeave this.
Proof. split; reflexivity. Qed.





(** ** How the operations compose *)

Lemma run_app (acts1 acts2 : list action) (this : HighlightDirective) :
  run this (acts1 ++ acts2) = JS.bind (run this acts1) (fun t => run t acts2).
Proof.
  revert this. induction acts1 as [|a acts1 IH]; intros this; simpl.
  - reflexivity.
  - destruct (perform this a) as [t|exn]; simpl; [apply IH|reflexivity].
Qed.

(** The closed form of [highlight]: only the element is replaced. *)
Lemma highlight_inv (this : HighlightDirective) (color : value) :
  exists m, highlight this color = Normal (set_nativeElement this (mkElement m))
    /\ m !! "backgroundColor" = Renderer.written color
    /\ delete "backgroundColor" m = other_styles this
    /\ m = match color with
           | str s => <["backgroundColor" := s]> (style (nativeElement (el this)))
           | null | undefined => delete "backgroundColor" (style (nativeElement (el this)))
           end.
Proof.
  unfold highlight, other_styles.
  destruct color as [| |s]; simpl; eexists; (split; [reflexivity|]).
  - split; [apply lookup_delete_eq|]. split; [apply delete_delete_eq|reflexivity].
  - split; [apply lookup_delete_eq|]. split; [apply delete_delete_eq|reflexivity].
  - split; [apply lookup_insert_eq|]. split; [apply delete_insert_eq|reflexivity].
Qed.

(** A second [highlight] overwrites the first. *)
Lemma highlight_absorb (this : HighlightDirective) (c1 c2 : value) :
  JS.bind (highlight this c1) (fun t => highlight t c2) = highlight this c2.
Proof.
  unfold highlight.
  destruct c1 as [| |s1], c2 as [| |s2]; simpl; unfold set_nativeElement; simpl;
    rewrite ?delete_delete_eq, ?insert_delete_eq, ?delete_insert_eq,
      ?insert_insert_eq; reflexivity.
Qed.

Lemma perform_binding_el (this this' : HighlightDirective) (a : action) :
  is_binding a = true -> perform this a = Normal this' -> el this' = el this.
Proof.
  destruct a as [v|v| |]; simpl; try discriminate; intros _ [= <-]; reflexivity.
Qed.

Lemma run_bindings_el (acts : list action) (this this' : HighlightDirective) :
  forallb is_binding acts = true -> run this acts = Normal this' -> el this' = el this.
Proof.
  revert this. induction acts as [|a acts IH]; intros this; simpl.
  - intros _ [= <-]. reflexivity.
  - intros [Ha Hacts]%andb_prop.
    destruct (perform this a) as [t|exn] eqn:Hp; simpl; [|discriminate].
    intros Hrun. rewrite (IH t Hacts Hrun). eapply perform_binding_el; eassumption.
Qed.

Lemma perform_other_styles (this this' : HighlightDirective) (a : action) :
  perform this a = Normal this' -> other_styles this' = other_styles this.
Proof.
  destruct a as [v|v| |]; simpl.
  - intros [= <-]. reflexivity.
  - intros [= <-]. reflexivity.
  - unfold onMouseEnter.
    destruct (highlight_spec this (JS.or (highlightColor this) (_defaultColor this)))
      as (t & -> & _ & Hrest & _). intros [= <-]. exact Hrest.
  - unfold onMouseLeave.
    destruct (highlight_spec this null) as (t & -> & _ & Hrest & _).
    intros [= <-]. exact Hrest.
Qed.

(** The fields after an action depend on the fields before it only, and a
    host event leaves them alone. *)
Lemma perform_fields (this this0 this' : HighlightDirective) (a : action) :
  highlightColor this = highlightColor this0 ->
  _defaultColor this = _defaultColor this0 ->
  perform this a = Normal this' ->
  if is_binding a
  then exists this0', perform this0 a = Normal this0'
         /\ highlightColor this' = highlightColor this0'
         /\ _defaultColor this' = _defaultColor this0'
  else highlightColor this' = highlightColor this0
       /\ _defaultColor this' = _defaultColor this0.
Proof.
  intros Hh Hd. destruct a as [v|v| |]; simpl.
  - intros [= <-]. eexists. split; [reflexivity|]. simpl. auto.
  - intros [= <-]. eexists. split; [reflexivity|]. simpl. rewrite Hd. auto.
  - unfold onMouseEnter.
    destruct (highlight_spec this (JS.or (highlightColor this) (_defaultColor this)))
      as (t & -> & _ & _ & Hd' & Hh'). intros [= <-]. split; congruence.
  - unfold onMouseLeave.
    destruct (highlight_spec this null) as (t & -> & _ & _ & Hd' & Hh').
    intros [= <-]. split; congruence.
Qed.

Lemma run_fields (acts : list action) (this this0 : HighlightDirective) :
  highlightColor this = highlightColor this0 ->
  _defaultColor this = _defaultColor this0 ->
  exists this' this0',
    run this acts = Normal this'
    /\ run this0 (List.filter is_binding acts) = Normal this0'
    /\ highlightColor this' = highlightColor this0'
    /\ _defaultColor this' = _defaultColor this0'.
Proof.
  revert this this0. induction acts as [|a acts IH]; intros this this0 Hh Hd; simpl.
  - exists this, this0. auto.
  - destruct (perform_normal this a) as (t & Ht). rewrite Ht. simpl.
    pose proof (perform_fields this this0 t a Hh Hd Ht) as Hf.
    destruct (is_binding a); simpl.
    + destruct Hf as (t0 & -> & Hh' & Hd'). simpl. apply IH; assumption.
    + destruct Hf as (Hh' & Hd'). apply IH; assumption.
Qed.

Lemma last_truthy_cons (d v : value) (vs : list value) :
  last_truthy d (v :: vs) = last_truthy (JS.or v d) vs.
Proof.
  unfold last_truthy, JS.or. destruct (truthy v) eqn:Hv.
  - rewrite filter_cons_True by exact Hv. rewrite last_cons.
    destruct (last _); reflexivity.
  - rewrite filter_cons_False by (rewrite Hv; discriminate). reflexivity.
Qed.

Lemma bind_Normal_r {A : Type} (c : completion A) : JS.bind c Normal = c.
Proof. destruct c; reflexivity. Qed.

Lemma highlight_after_highlight (this t : HighlightDirective) (c1 c2 : value) :
  highlight this c1 = Normal t -> highlight t c2 = highlight this c2.
Proof.
  intros H. rewrite <- (highlight_absorb this c1 c2), H. reflexivity.
Qed.

Lemma highlight_fields (this t : HighlightDirective) (c : value) :
  highlight this c = Normal t ->
  highlightColor t = highlightColor this /\ _defaultColor t = _defaultColor this.
Proof.
  destruct (highlight_spec this c) as (t' & -> & _ & _ & Hd & Hh).
  intros [= <-]. auto.
Qed.

(** The background kind a run from a new directive can reach: the one the
    element came with, none, or a non-empty colour. *)
Lemma run_background_kinds (b0 : option string) (acts : list action)
    (this : HighlightDirective) :
  truthy (_defaultColor this) = true ->
  (background this = b0 \/ background this = None
   \/ exists s, background this = Some s /\ s <> EmptyString) ->
  exists this', run this acts = Normal this'
    /\ (background this' = b0 \/ background this' = None
        \/ exists s, background this' = Some s /\ s <> EmptyString).
Proof.
  revert this. induction acts as [|a acts IH]; intros this Hinv Hbg; simpl.
  - exists this. auto.
  - destruct (perform_normal this a) as (t & Ht). rewrite Ht. simpl.
    apply IH; [eapply perform_preserves_truthy; eassumption|].
    destruct a as [v|v| |]; simpl in Ht.
    + injection Ht as <-. exact Hbg.
    + injection Ht as <-. exact Hbg.
    + unfold onMouseEnter in Ht.
      destruct (highlight_spec this (JS.or (highlightColor this) (_defaultColor this)))
        as (t' & Hrun & Hb & _).
      rewrite Hrun in Ht. injection Ht as <-.
      destruct (truthy_str _ (truthy_or (highlightColor this) _ Hinv)) as (s & Hs & Hne).
      right. right. exists s. rewrite Hb, Hs. auto.
    + unfold onMouseLeave in Ht.
      destruct (highlight_spec this null) as (t' & Hrun & Hb & _).
      rewrite Hrun in Ht. injection Ht as <-. right. left. exact Hb.
Qed.

(** X1: of two host events in a row only the second one shows: each handler
    overwrites what the previous one wrote, so the directive ends in the
    state the second event alone would have produced. *)
Theorem last_host_event_wins (this : HighlightDirective) :
  run this [MouseEnter; MouseEnter] = run this [MouseEnter]
  /\ run this [MouseLeave; MouseEnter] = run this [MouseEnter]
  /\ run this [MouseEnter; MouseLeave] = run this [MouseLeave]
  /\ run this [MouseLeave; MouseLeave] = run this [MouseLeave].
Proof.
  cbn [run perform]. unfold onMouseEnter, onMouseLeave.
  destruct (highlight_spec this (JS.or (highlightColor this) (_defaultColor this)))
    as (te & He & _).
  destruct (highlight_spec this null) as (tl & Hl & _).
  destruct (highlight_fields _ _ _ He) as (Heh & Hed).
  destruct (highlight_fields _ _ _ Hl) as (Hlh & Hld).
  rewrite He, Hl. cbn [JS.bind]. rewrite Heh, Hed, Hlh, Hld.
  rewrite !(highlight_after_highlight _ _ _ _ He).
  rewrite !(highlight_after_highlight _ _ _ _ Hl).
  rewrite He, Hl. cbn [JS.bind]. auto.
Qed.

(** X2: entering and then leaving gives back the directive and its element
    exactly when the element had no inline background before: a background
    the element came with is not restored on leave. *)
Theorem enter_leave_restores_iff (this : HighlightDirective) :
  run this [MouseEnter; MouseLeave] = Normal this <-> background this = None.
Proof.
  cbn [run perform]. unfold onMouseEnter, onMouseLeave.
  destruct (highlight_spec this (JS.or (highlightColor this) (_defaultColor this)))
    as (t & Ht & _).
  rewrite Ht. cbn [JS.bind].
  rewrite bind_Normal_r, (highlight_after_highlight _ _ _ _ Ht).
  unfold background.
  destruct this as [d [[m]] h]. unfold highlight, set_nativeElement. simpl. split.
  - intros [= Hm]. rewrite <- Hm. apply lookup_delete_eq.
  - intros Hm. rewrite (delete_id _ _ Hm). reflexivity.
Qed.

Lemma enter_leave_restores_iff_witness :
  run (new plain) [MouseEnter; MouseLeave] = Normal (new plain).
Proof.
  apply (proj2 (enter_leave_restores_iff (new plain))). reflexivity.
Defined.

(** X3: after any sequence of calls of the [defaultColor] setter the field
    reads the last truthy argument, or its old value when no argument was
    truthy; [highlightColor] and the element are as before. *)
Theorem defaultColor_sequence (this : HighlightDirective) (vs : list value) :
  exists this', run this (map BindDefaultColor vs) = Normal this'
    /\ _defaultColor this' = last_truthy (_defaultColor this) vs
    /\ highlightColor this' = highlightColor this
    /\ el this' = el this.
Proof.
  revert this. induction vs as [|v vs IH]; intros this; cbn [map run perform].
  - exists this. unfold last_truthy. simpl. auto.
  - rewrite defaultColor_spec. cbn [JS.bind].
    destruct (IH (set__defaultColor this (JS.or v (_defaultColor this))))
      as (this' & Hrun & Hd & Hh & Hel).
    exists this'. split; [exact Hrun|].
    rewrite last_truthy_cons. simpl in Hd, Hh, Hel. auto.
Qed.

(** X4: writing the input bindings never repaints: after any sequence of
    bindings, without a host event, the element and so its background are
    what they were. *)
Theorem bindings_do_not_repaint (this : HighlightDirective) (acts : list action) :
  forallb is_binding acts = true ->
  exists this', run this acts = Normal this'
    /\ el this' = el this /\ background this' = background this.
Proof.
  intros Hacts. destruct (run_normal acts this) as (this' & Hrun).
  exists this'. split; [exact Hrun|].
  pose proof (run_bindings_el acts this this' Hacts Hrun) as Hel.
  split; [exact Hel|]. unfold background. rewrite Hel. reflexivity.
Qed.

Lemma bindings_do_not_repaint_witness :
  exists this',
    run yellow_directive [BindHighlightColor (str "green"); BindDefaultColor (str "blue")]
      = Normal this'
    /\ el this' = el yellow_directive /\ background this' = background yellow_directive.
Proof.
  apply (bindings_do_not_repaint yellow_directive
           [BindHighlightColor (str "green"); BindDefaultColor (str "blue")]).
  reflexivity.
Defined.

(** X5: on a directive created by the constructor, whatever bindings and
    events came before, a mouse-enter always paints a non-empty colour: the
    bound [highlightColor] when it is truthy, else the default colour. *)
Theorem hover_shows_a_colour (el : ElementRef) (acts : list action) :
  exists t this' s,
    run (new el) acts = Normal t
    /\ run (new el) (acts ++ [MouseEnter]) = Normal this'
    /\ background this' = Some s
    /\ s <> EmptyString
    /\ str s = JS.or (highlightColor t) (_defaultColor t).
Proof.
  destruct (run_normal_truthy acts (new el)) as (t & Hrun & Hinv); [reflexivity|].
  destruct (highlight_spec t (JS.or (highlightColor t) (_defaultColor t)))
    as (this' & Hh & Hbg & _).
  destruct (truthy_str _ (truthy_or (highlightColor t) _ Hinv)) as (s & Hs & Hne).
  exists t, this', s. split; [exact Hrun|]. split.
  - rewrite run_app, Hrun. simpl. unfold onMouseEnter. rewrite Hh. reflexivity.
  - rewrite Hbg, Hs. auto.
Qed.

(** X6: over any sequence of bindings and events the directive touches no
    style property of the element other than its background colour. *)
Theorem run_preserves_other_styles (this : HighlightDirective) (acts : list action) :
  exists this', run this acts = Normal this' /\ other_styles this' = other_styles this.
Proof.
  revert this. induction acts as [|a acts IH]; intros this; simpl.
  - exists this. auto.
  - destruct (perform_normal this a) as (t & Ht). rewrite Ht. simpl.
    destruct (IH t) as (this' & Hrun & Hrest). exists this'. split; [exact Hrun|].
    rewrite Hrest. eapply perform_other_styles. exact Ht.
Qed.

(** X7: while [highlightColor] is truthy the default colour is not used:
    calling the setter with any value before a mouse-enter leaves the
    element as the mouse-enter alone does. *)
Theorem highlightColor_takes_priority (this : HighlightDirective) (v : value) :
  truthy (highlightColor this) = true ->
  exists t1 t2 t3,
    defaultColor this v = Normal t1
    /\ onMouseEnter t1 = Normal t2
    /\ onMouseEnter this = Normal t3
    /\ el t2 = el t3.
Proof.
  intros Hc.
  destruct (highlight_spec this (highlightColor this)) as (t3 & H3 & _).
  destruct (highlight_spec (set__defaultColor this (JS.or v (_defaultColor this)))
              (highlightColor this)) as (t2 & H2 & _).
  exists (set__defaultColor this (JS.or v (_defaultColor this))), t2, t3.
  split; [apply defaultColor_spec|].
  unfold onMouseEnter. cbn [set__defaultColor highlightColor _defaultColor].
  rewrite !(or_truthy (highlightColor this)) by exact Hc.
  split; [exact H2|]. split; [exact H3|].
  unfold highlight in H2, H3. cbn [set__defaultColor el] in H2.
  destruct (Renderer.setElementStyle (nativeElement (el this)) "backgroundColor"
              (highlightColor this)) as [e|exn]; cbn [JS.bind] in H2, H3;
    [|discriminate].
  injection H2 as <-. injection H3 as <-. reflexivity.
Qed.

Lemma highlightColor_takes_priority_witness :
  exists t1 t2 t3,
    defaultColor yellow_directive (str "blue") = Normal t1
    /\ onMouseEnter t1 = Normal t2
    /\ onMouseEnter yellow_directive = Normal t3
    /\ el t2 = el t3.
Proof.
  apply (highlightColor_takes_priority yellow_directive (str "blue")). reflexivity.
Defined.

(** X8: the two fields after a run are those after the run with its host
    events taken out: only the bindings decide them. *)
Theorem fields_depend_on_bindings_only (this : HighlightDirective) (acts : list action) :
  exists this' this0',
    run this acts = Normal this'
    /\ run this (List.filter is_binding acts) = Normal this0'
    /\ highlightColor this' = highlightColor this0'
    /\ _defaultColor this' = _defaultColor this0'.
Proof. apply run_fields; reflexivity. Qed.

(** X9: the background after a run is decided at its last host event: when
    only bindings follow a mouse-leave the background is still cleared, and
    when only bindings follow a mouse-enter it is still the colour chosen
    from the fields as they were at that mouse-enter. *)
Theorem background_decided_at_last_event (this : HighlightDirective)
    (acts binds : list action) :
  forallb is_binding binds = true ->
  exists t,
    run this acts = Normal t
    /\ (exists this', run this (acts ++ MouseLeave :: binds) = Normal this'
          /\ background this' = None)
    /\ (exists this', run this (acts ++ MouseEnter :: binds) = Normal this'
          /\ background this' =
             Renderer.written (JS.or (highlightColor t) (_defaultColor t))).
Proof.
  intros Hb. destruct (run_normal acts this) as (t & Hrun).
  exists t. split; [exact Hrun|]. rewrite !run_app, Hrun.
  cbn [JS.bind run perform]. split.
  - unfold onMouseLeave.
    destruct (highlight_spec t null) as (t1 & -> & Hbg & _). cbn [JS.bind].
    destruct (run_normal binds t1) as (this' & Hr). exists this'.
    split; [exact Hr|]. unfold background.
    rewrite (run_bindings_el binds t1 this' Hb Hr). exact Hbg.
  - unfold onMouseEnter.
    destruct (highlight_spec t (JS.or (highlightColor t) (_defaultColor t)))
      as (t1 & -> & Hbg & _). cbn [JS.bind].
    destruct (run_normal binds t1) as (this' & Hr). exists this'.
    split; [exact Hr|]. unfold background.
    rewrite (run_bindings_el binds t1 this' Hb Hr). exact Hbg.
Qed.

Lemma background_decided_at_last_event_witness :
  exists t,
    run yellow_directive [MouseEnter] = Normal t
    /\ (exists this',
          run yellow_directive ([MouseEnter] ++ MouseLeave :: [BindHighlightColor (str "green")])
            = Normal this'
          /\ background this' = None)
    /\ (exists this',
          run yellow_directive ([MouseEnter] ++ MouseEnter :: [BindHighlightColor (str "green")])
            = Normal this'
          /\ background this' =
             Renderer.written (JS.or (highlightColor t) (_defaultColor t))).
Proof.
  apply (background_decided_at_last_event yellow_directive [MouseEnter]
           [BindHighlightColor (str "green")]).
  reflexivity.
Defined.

(** X10: a directive created by the constructor never paints the empty
    string: after any run the background is the one the element came with,
    or none, or a non-empty colour. *)
Theorem never_paints_empty (el : ElementRef) (acts : list action) :
  exists this', run (new el) acts = Normal this'
    /\ (background this' = background (new el)
        \/ background this' = None
        \/ exists s, background this' = Some s /\ s <> EmptyString).
Proof.
  apply run_background_kinds; [reflexivity|]. left. reflexivity.
Qed.

(** The background a paragraph came with is gone after a hover, and of the
    setter's arguments the last truthy one is kept. *)
Example hover_loses_own_background :
  run (new paragraph) [MouseEnter; MouseLeave] <> Normal (new paragraph).
Proof.
  intros H.
  apply (f_equal (fun c => match c with
                           | Normal t => background t
                           | Throw _ => None
                           end)) in H.
  vm_compute in H. discriminate H.
Qed.

Example setter_keeps_last_truthy :
  match run (new paragraph)
          (map BindDefaultColor [str "violet"; str EmptyString; str "blue"; null]) with
  | Normal this => _defaultColor this = str "blue"
  | Throw _ => False
  end.
Proof. vm_compute. reflexivity. Qed.
